(** * analyse_insta.py: extraction of identifiers and comparison of two lists

    A shallow embedding of [src/analyse_insta.py].  The script reads two
    JSON exports (followers, following), extracts the ['href'] identifiers
    they carry into Python sets, and writes a three-section text report.

    - JSON values are the values [json.load] builds (dict, list, str, int,
      float, bool, None).
    - A Python [str] is a [string]: its characters are 8-bit codes, ordered
      as Python orders code points, so that [String.le] is the order
      [sorted] uses.
    - Python sets of [str] are [gset string].
    - Printing, the local set [values] (mutated in place by [values.add]),
      the files written and Python exceptions are threaded through a small
      state-and-exception monad [M].  The files read are those of the
      [world]; whether [open] and [json.load] succeed on a path is part of
      it, as the parser itself is library code, and so is which characters
      the encoding of the destination file rejects: [out_f.write] raises
      [UnicodeEncodeError] on a text that holds one of them. *)

From Stdlib Require Import ZArith Ascii String.
From stdpp Require Import base decidable option list sorting strings pretty
  gmap fin_sets.

Local Open Scope string_scope.
Set Warnings "-register-all".

(** ** Parsed JSON documents *)

(** What [json.load] returns.  A float's numeric value plays no role in the
    program; it is kept as the literal it was read from. *)
Inductive json : Type :=
  | JNone
  | JBool (b : bool)
  | JInt (n : Z)
  | JFloat (literal : string)
  | JStr (s : string)
  | JList (items : list json)
  | JDict (fields : list (string * json)).

(** A dict is kept as its list of bindings; [dict_get k d] is [d[k]] when
    [k in d], and [None] when [k not in d]. *)
Fixpoint dict_get (k : string) (d : list (string * json)) : option json :=
  match d with
  | [] => None
  | (k', v) :: d' => if decide (k = k') then Some v else dict_get k d'
  end.

(** [type(v).__name__], as it appears in the text of an [AttributeError]. *)
Definition type_name (v : json) : string :=
  match v with
  | JNone => "NoneType"
  | JBool _ => "bool"
  | JInt _ => "int"
  | JFloat _ => "float"
  | JStr _ => "str"
  | JList _ => "list"
  | JDict _ => "dict"
  end.

(** ** Strings *)

Definition nl : string := String "010"%char EmptyString.

Fixpoint char_in (c : ascii) (chars : string) : bool :=
  match chars with
  | EmptyString => false
  | String c' chars' => if decide (c = c') then true else char_in c chars'
  end.

(** [s.rstrip(chars)]: the longest prefix of [s] that does not end with a
    character of [chars]. *)
Fixpoint rstrip (chars s : string) : string :=
  match s with
  | EmptyString => EmptyString
  | String c t =>
      match rstrip chars t with
      | EmptyString =>
          if char_in c chars then EmptyString else String c EmptyString
      | t' => String c t'
      end
  end.

(** [sorted(list(s))] for a set of strings: Python orders [str] by code
    point, lexicographically. *)
Definition sorted (l : list string) : list string := merge_sort String.le l.

(** ** The world the script runs in *)

(** Python exceptions the script can meet; all derive from [Exception].
    The payload is [str(e)].  [UnicodeEncodeError] is a [ValueError], not
    an [OSError]. *)
Inductive exn : Type :=
  | JSONDecodeError (msg : string)
  | AttributeError (msg : string)
  | OSError (msg : string)
  | UnicodeEncodeError (msg : string)
  | OtherException (msg : string).

Definition str_exn (e : exn) : string :=
  match e with
  | JSONDecodeError m | AttributeError m | OSError m | UnicodeEncodeError m
  | OtherException m => m
  end.

(** What opening a path and running [json.load] on it gives: a parsed
    document, or the exception raised by [open] or by the parser. *)
Inductive file : Type :=
  | Document (data : json)
  | Unloadable (e : exn).

(** [files] holds the existing paths; [write_errors] the paths that cannot
    be opened for writing, with the text of the [OSError]; [unencodable]
    the characters that the default encoding, in which [open(path, 'w')]
    opens the destination, cannot encode (every character above 127 under
    ASCII; a lone surrogate, which no encoding accepts, behaves as such a
    character). *)
Record world : Type := World {
  files : gmap string file;
  write_errors : gmap string string;
  unencodable : gset ascii
}.

(** The mutable state of a run: the set bound to the local [values] of the
    running [get_values_from_json], the lines printed so far, and the text
    files written so far. *)
Record store : Type := Store {
  values : gset string;
  stdout : list string;
  disk : gmap string string
}.

(** ** The monad *)

Definition M (A : Type) : Type := store → store * (exn + A).

Definition ret {A} (a : A) : M A := λ s, (s, inr a).

Definition bind {A B} (c : M A) (k : A → M B) : M B :=
  λ s, match c s with
       | (s', inr a) => k a s'
       | (s', inl e) => (s', inl e)
       end.

Definition raise {A} (e : exn) : M A := λ s, (s, inl e).

(** [try: body except ...: handler]; a handler that does not match
    re-raises. *)
Definition try_except {A} (body : M A) (handler : exn → M A) : M A :=
  λ s, match body s with
       | (s', inl e) => handler e s'
       | r => r
       end.

Declare Scope py_scope.
Delimit Scope py_scope with py.
Notation "x <- c ;; k" := (bind c (λ x, k))
  (at level 100, c at next level, right associativity) : py_scope.
Notation "c ;; k" := (bind c (λ _, k))
  (at level 100, right associativity) : py_scope.
Local Open Scope py_scope.

Definition print (line : string) : M unit :=
  λ s, (Store (values s) (stdout s ++ [line]) (disk s), inr tt).

(** [values = set()] *)
Definition new_values : M unit :=
  λ s, (Store ∅ (stdout s) (disk s), inr tt).

(** [values.add(x)] *)
Definition values_add (x : string) : M unit :=
  λ s, (Store ({[x]} ∪ values s) (stdout s) (disk s), inr tt).

(** reading the variable [values] *)
Definition get_values : M (gset string) := λ s, (s, inr (values s)).

(** [for i, x in enumerate(l): body], counting from [i]. *)
Fixpoint for_enumerate {A} (i : nat) (l : list A) (body : nat → A → M unit)
    : M unit :=
  match l with
  | [] => ret tt
  | x :: l' => body i x ;; for_enumerate (S i) l' body
  end.

(** [for x in l: body] *)
Fixpoint for_each {A} (l : list A) (body : A → M unit) : M unit :=
  match l with
  | [] => ret tt
  | x :: l' => body x ;; for_each l' body
  end.

(** [os.path.exists(filepath)] *)
Definition path_exists (w : world) (filepath : string) : bool :=
  bool_decide (is_Some (files w !! filepath)).

(** [with open(filepath, 'r') as f: data = json.load(f)] *)
Definition load (w : world) (filepath : string) : M json :=
  match files w !! filepath with
  | Some (Document data) => ret data
  | Some (Unloadable e) => raise e
  | None => raise (OSError ("[Errno 2] No such file or directory: '"
                            +:+ filepath +:+ "'"))
  end.

(** [open(path, 'w')] truncates; it raises [OSError] on a path that cannot
    be written. *)
Definition open_w (w : world) (path : string) : M unit :=
  match write_errors w !! path with
  | Some msg => raise (OSError msg)
  | None => λ s, (Store (values s) (stdout s) (<[path := EmptyString]> (disk s)),
                  inr tt)
  end.

(** The characters below 128 are encoded by every encoding a file is
    opened with; the others unless the world says otherwise. *)
Definition can_encode (w : world) (c : ascii) : bool :=
  match c with
  | Ascii _ _ _ _ _ _ _ false => true
  | _ => negb (bool_decide (c ∈ unencodable w))
  end.

Fixpoint encodable (w : world) (text : string) : bool :=
  match text with
  | EmptyString => true
  | String c text' => can_encode w c && encodable w text'
  end.

(** Stands for the text of the [UnicodeEncodeError] raised on [text],
    which in Python names the codec and the position; the script never
    prints it. *)
Definition msg_cannot_encode (text : string) : string :=
  "codec can't encode characters of: " +:+ text.

(** [out_f.write(text)] on the file opened at [path]: the text is encoded
    as a whole, in strict mode; when a character cannot be encoded nothing
    of it is written and [UnicodeEncodeError] is raised.  What earlier
    calls wrote stays in the file, which the [with] block closes. *)
Definition write (w : world) (path text : string) : M unit :=
  if encodable w text then
    λ s, (Store (values s) (stdout s)
            (<[path := default EmptyString (disk s !! path) +:+ text]> (disk s)),
          inr tt)
  else raise (UnicodeEncodeError (msg_cannot_encode text)).

(** ** get_values_from_json *)

(** [sub_item['href'].rstrip('/')]: only [str] has the method. *)
Definition call_rstrip (v : json) (chars : string) : M string :=
  match v with
  | JStr s => ret (rstrip chars s)
  | _ => raise (AttributeError
                  ("'" +:+ type_name v +:+ "' object has no attribute 'rstrip'"))
  end.

(** Lines 21-29: the records to process, or [None] for the [else] branch. *)
Definition items_to_process (data : json) : option (list json) :=
  match data with
  | JList items => Some items
  | JDict d =>
      match dict_get "relationships_following" d with
      | Some (JList items) => Some items
      | _ => None
      end
  | _ => None
  end.

(** Lines 38-46: the body of the inner loop. *)
Definition process_sub_item (filepath : string) (i j : nat) (sub_item : json)
    : M unit :=
  match sub_item with
  | JDict d =>
      match dict_get "href" d with
      | Some h =>
          normalized_href <- call_rstrip h "/" ;;
          values_add normalized_href
      | None =>
          print ("Warning: 'href' key not found in sub-item " +:+ pretty j
                 +:+ " of item " +:+ pretty i +:+ " in " +:+ filepath
                 +:+ ". Skipping.")
      end
  | _ =>
      print ("Warning: Sub-item at index " +:+ pretty j
             +:+ " within string_list_data of item " +:+ pretty i +:+ " in "
             +:+ filepath +:+ " is not a dictionary. Skipping.")
  end.

(** Lines 32-48: the body of the outer loop. *)
Definition process_item (filepath : string) (i : nat) (item : json) : M unit :=
  match item with
  | JDict d =>
      match dict_get "string_list_data" d with
      | Some (JList sub_items) =>
          for_enumerate 0 sub_items (process_sub_item filepath i)
      | _ =>
          print ("Warning: 'string_list_data' key (or it's not a list) not found in item "
                 +:+ pretty i +:+ " in " +:+ filepath +:+ ". Skipping.")
      end
  | _ =>
      print ("Warning: Item at index " +:+ pretty i +:+ " in " +:+ filepath
             +:+ " is not a dictionary. Skipping.")
  end.

Definition msg_not_found (filepath : string) : string :=
  "Error: File not found at " +:+ filepath +:+ ". Please check the path.".

Definition msg_unexpected_structure (filepath : string) : string :=
  "Warning: Unexpected top-level JSON structure in " +:+ filepath
  +:+ ". Expected a list or a dictionary with 'relationships_following' key. Skipping extraction.".

Definition msg_invalid_json (filepath : string) : string :=
  "Error: Invalid JSON format in " +:+ filepath
  +:+ ". Please check the file content.".

Definition msg_unexpected_error (filepath : string) (e : exn) : string :=
  "An unexpected error occurred while processing " +:+ filepath +:+ ": "
  +:+ str_exn e.

(** Lines 17-48: the [try] block. *)
Definition extract (w : world) (filepath : string) : M unit :=
  data <- load w filepath ;;
  match items_to_process data with
  | Some items => for_enumerate 0 items (process_item filepath)
  | None => print (msg_unexpected_structure filepath)
  end.

Definition get_values_from_json (w : world) (filepath : string)
    : M (gset string) :=
  new_values ;;
  if negb (path_exists w filepath) then
    print (msg_not_found filepath) ;;
    get_values
  else
    try_except (extract w filepath)
      (λ e, match e with
            | JSONDecodeError _ => print (msg_invalid_json filepath)
            | _ => print (msg_unexpected_error filepath e)
            end) ;;
    get_values.

(** ** analyze_instagram_lists *)

(** [a.intersection(b)]: the elements of [a] that are in [b];
    [a.difference(b)]: the elements of [a] that are not in [b]. *)
Definition intersection (a b : gset string) : gset string :=
  filter (λ x, x ∈ b) a.

Definition difference (a b : gset string) : gset string :=
  filter (λ x, x ∉ b) a.

(** The truth value of a set: [False] exactly when it is empty. *)
Definition truthy (a : gset string) : bool := negb (bool_decide (a = ∅)).

(** Lines 73, 77 and 81. *)
Definition mutuals (followers following : gset string) : gset string :=
  intersection followers following.

Definition not_following_back (followers following : gset string)
    : gset string :=
  difference following followers.

Definition you_dont_follow_back (followers following : gset string)
    : gset string :=
  difference followers following.

(** The block the script repeats for each section (lines 87-93, 95-101 and
    103-109), with the section's title line and set. *)
Definition write_section (w : world) (out_f : string) (title : string)
    (users : gset string) : M unit :=
  write w out_f (title +:+ nl) ;;
  (if truthy users then
     for_each (sorted (elements users))
       (λ user, write w out_f ("- " +:+ user +:+ nl))
   else
     write w out_f ("- None" +:+ nl)) ;;
  write w out_f nl.

Definition title_not_following_back : string :=
  "Users you follow who DO NOT follow you back:".
Definition title_you_dont_follow_back : string :=
  "Users who follow you that you DO NOT follow back:".
Definition title_mutuals : string :=
  "Mutual followers (you follow each other):".

(** Lines 84-111: the [try] block that writes the report. *)
Definition write_report (w : world) (output_file : string)
    (followers following : gset string) : M unit :=
  open_w w output_file ;;
  write w output_file ("--- Instagram List Analysis ---" +:+ nl +:+ nl) ;;
  write_section w output_file title_not_following_back
    (not_following_back followers following) ;;
  write_section w output_file title_you_dont_follow_back
    (you_dont_follow_back followers following) ;;
  write_section w output_file title_mutuals (mutuals followers following) ;;
  print ("Analysis complete. Results saved to " +:+ output_file).

Definition msg_no_data : string :=
  "No data extracted from either file. Exiting.".

(** Lines 60-66: both extractions, with their progress lines. *)
Definition read_lists (w : world) (followers_file following_file : string)
    : M (gset string * gset string) :=
  print ("Attempting to read followers data from: " +:+ followers_file) ;;
  followers <- get_values_from_json w followers_file ;;
  print ("Extracted " +:+ pretty (size followers) +:+ " entries from "
         +:+ followers_file) ;;
  print ("Attempting to read following data from: " +:+ following_file) ;;
  following <- get_values_from_json w following_file ;;
  print ("Extracted " +:+ pretty (size following) +:+ " entries from "
         +:+ following_file) ;;
  ret (followers, following).

Definition msg_write_failed (output_file : string) : string :=
  "Error: Could not write to output file " +:+ output_file.

(** Lines 83-114: the report under its [except IOError]. *)
Definition save_report (w : world) (output_file : string)
    (followers following : gset string) : M unit :=
  try_except (write_report w output_file followers following)
    (λ e, match e with
          | OSError _ => print (msg_write_failed output_file)
          | _ => raise e
          end).

Definition analyze_instagram_lists (w : world)
    (followers_file following_file output_file : string) : M unit :=
  lists <- read_lists w followers_file following_file ;;
  let followers := lists.1 in
  let following := lists.2 in
  if negb (truthy followers) && negb (truthy following) then
    print msg_no_data
  else
    save_report w output_file followers following.

(** ** Sample documents *)

Definition sub_record (href : json) : json := JDict [("href", href)].
Definition record (sub_items : list json) : json :=
  JDict [("title", JStr EmptyString); ("string_list_data", JList sub_items)].

Definition s0 : store := Store ∅ [] ∅.

Definition followers_doc : json :=
  JList [record [sub_record (JStr "https://insta.com/a/")];
         record [sub_record (JStr "https://insta.com/b")]].
Definition following_doc : json :=
  JDict [("relationships_following",
          JList [record [sub_record (JStr "https://insta.com/b/")];
                 record [sub_record (JStr "https://insta.com/c")]])].

Definition sample_world : world :=
  World {[ "followers_1.json" := Document followers_doc;
           "following.json" := Document following_doc ]} ∅ ∅.

(** A document whose only list of records sits under another key than
    ['relationships_following']. *)
Definition other_key_records : list json :=
  [record [sub_record (JStr "https://insta.com/a")]].
Definition other_key_doc : json :=
  JDict [("relationships_followers", JList other_key_records)].

(** A document whose first sub-record carries a number as ['href']. *)
Definition numeric_href_doc : json :=
  JList [record [sub_record (JInt 5)];
         record [sub_record (JStr "https://insta.com/a")]].

(** A document with the same identifier written with and without its
    trailing slash, and one whose identifier is a lone slash. *)
Definition slash_doc : json :=
  JList [record [sub_record (JStr "a/b/"); sub_record (JStr "a/b")]].
Definition lone_slash_doc : json :=
  JList [record [sub_record (JStr "/")]].

(** A document whose second record fails on its second sub-record. *)
Definition partial_doc : json :=
  JList [record [sub_record (JStr "x/")];
         record [sub_record (JStr "y"); sub_record (JInt 5);
                 sub_record (JStr "z")];
         record [sub_record (JStr "w")]].

Definition world_of (data : json) : world :=
  World {[ "followers_1.json" := Document data ]} ∅ ∅.



Definition sample_followers : gset string :=
  {["https://insta.com/a"; "https://insta.com/b"]}.
Definition sample_following : gset string :=
  {["https://insta.com/b"; "https://insta.com/c"]}.

Definition sample_read : store :=
  Store sample_following
    ["Attempting to read followers data from: followers_1.json";
     "Extracted 2 entries from followers_1.json";
     "Attempting to read following data from: following.json";
     "Extracted 2 entries from following.json"] ∅.

(** A world in which the followers export is not valid JSON and the
    following export has an unexpected top-level value. *)
Definition broken_world : world :=
  World {[ "followers_1.json" :=
             Unloadable (JSONDecodeError "Expecting value: line 1 column 1 (char 0)");
           "following.json" := Document (JStr "hello") ]} ∅ ∅.

(** ** Notions used to state the properties *)

(** [slashes n] is ['/' * n]. *)
Fixpoint slashes (n : nat) : string :=
  match n with
  | O => EmptyString
  | S n' => String "/"%char (slashes n')
  end.


(** [s] ends with the character [c]. *)
Definition ends_with (c : ascii) (s : string) : Prop :=
  ∃ p, s = p +:+ String c EmptyString.

(** The extraction of lines 31-54 run on a given list of records. *)
Definition extract_records (filepath : string) (items : list json)
    : M (gset string) :=
  new_values ;;
  try_except (for_enumerate 0 items (process_item filepath))
    (λ e, match e with
          | JSONDecodeError _ => print (msg_invalid_json filepath)
          | _ => print (msg_unexpected_error filepath e)
          end) ;;
  get_values.

(** A parsed value that is neither a list nor a dict binding
    ['relationships_following'] to a list. *)
Definition unrecognized_shape (data : json) : Prop :=
  (∀ items, data ≠ JList items) ∧
  (∀ d items, data = JDict d →
     dict_get "relationships_following" d ≠ Some (JList items)).

(** The line printed by the [except] clauses of [get_values_from_json]. *)
Definition msg_except (filepath : string) (e : exn) : string :=
  match e with
  | JSONDecodeError _ => msg_invalid_json filepath
  | _ => msg_unexpected_error filepath e
  end.

Definition msg_no_rstrip (v : json) : string :=
  "'" +:+ type_name v +:+ "' object has no attribute 'rstrip'".

(** The values found under ['href'], in document order: those of a
    sub-record, of a record, and of a list of records.  Items of the wrong
    type and items without the field contribute nothing. *)
Definition sub_item_hrefs (sub_item : json) : list json :=
  match sub_item with
  | JDict d => match dict_get "href" d with Some h => [h] | None => [] end
  | _ => []
  end.

Definition item_hrefs (item : json) : list json :=
  match item with
  | JDict d =>
      match dict_get "string_list_data" d with
      | Some (JList sub_items) => concat (sub_item_hrefs <$> sub_items)
      | _ => []
      end
  | _ => []
  end.

Definition hrefs (items : list json) : list json :=
  concat (item_hrefs <$> items).

Definition is_str (v : json) : Prop := ∃ h, v = JStr h.

(** The normalized identifiers of the strings among [hs]. *)
Definition identifiers (hs : list json) : gset string :=
  list_to_set
    (omap (λ v, match v with JStr h => Some (rstrip "/" h) | _ => None end) hs).


(** The store after [line] has been printed. *)
Definition printed (line : string) (s : store) : store :=
  Store (values s) (stdout s ++ [line]) (disk s).

(** The report as the text of its lines, each ended by a newline. *)
Fixpoint unlines (ls : list string) : string :=
  match ls with
  | [] => EmptyString
  | l :: ls' => l +:+ nl +:+ unlines ls'
  end.





(** ** The script as it is run (lines 116-122) *)



(** ** Further notions *)

(** The longest prefix of [hs] made of strings only. *)
Fixpoint str_prefix (hs : list json) : list json :=
  match hs with
  | JStr h :: hs' => JStr h :: str_prefix hs'
  | _ => []
  end.

(** An action whose effect does not depend on the store it starts from: it
    adds the same identifiers to [values], prints the same lines, leaves
    the files alone and ends the same way. *)
Definition uniform {A} (c : M A) : Prop :=
  ∃ (add : gset string) (lines : list string) (r : exn + A),
    ∀ s, c s = (Store (values s ∪ add) (stdout s ++ lines) (disk s), r).

(** A record all of whose parts have the expected type and field. *)
Definition clean_sub_item (sub_item : json) : Prop :=
  ∃ d h, sub_item = JDict d ∧ dict_get "href" d = Some (JStr h).

Definition clean_item (item : json) : Prop :=
  ∃ d sub_items, item = JDict d ∧
    dict_get "string_list_data" d = Some (JList sub_items) ∧
    Forall clean_sub_item sub_items.

(** How a loop over part of the document ends: normally when every value
    under ['href'] in it is a string, with an exception otherwise; in both
    cases [values] has received the identifiers up to the first value that
    is not a string. *)
Definition ends_at_first_non_string (hs : list json) (s : store)
    (out : store * (exn + unit)) : Prop :=
  values out.1 = values s ∪ identifiers (str_prefix hs) ∧
  match out.2 with
  | inr _ => Forall is_str hs
  | inl _ => ¬ Forall is_str hs
  end.

(** The last character of a string, if it has one. *)
Fixpoint last_char (s : string) : option ascii :=
  match s with
  | EmptyString => None
  | String c t =>
      match t with
      | EmptyString => Some c
      | _ => last_char t
      end
  end.



(** ** The texts handed to [out_f.write] *)







(** A destination encoding that is plain ASCII, and an export with an
    identifier that holds a character above 127. *)
Definition ascii_only : gset ascii :=
  list_to_set (ascii_of_nat <$> seq 128 128).

Definition accented_doc : json :=
  JList [record [sub_record (JStr ("https://insta.com/caf"
                                   +:+ String "233"%char EmptyString))]].

Definition accented_world : world :=
  World {[ "followers_1.json" := Document accented_doc;
           "following.json" := Document (JList []) ]} ∅ ascii_only.

(** * Properties *)

(** ** Strings *)

Lemma append_cons (c : ascii) (s t : string) :
  String c s +:+ t = String c (s +:+ t).
Proof. reflexivity. Qed.

Lemma append_nil_l (t : string) : EmptyString +:+ t = t.
Proof. reflexivity. Qed.

Lemma append_nil_r (s : string) : s +:+ EmptyString = s.
Proof.
  induction s as [|c s IH]; [done|]. by rewrite append_cons, IH.
Qed.

Lemma append_assoc (a b c : string) : (a +:+ b) +:+ c = a +:+ (b +:+ c).
Proof.
  induction a as [|x a IH]; [done|]. by rewrite !append_cons, IH.
Qed.

Lemma append_snoc_nonempty (p : string) (c : ascii) :
  p +:+ String c EmptyString ≠ EmptyString.
Proof. by destruct p. Qed.

Lemma rstrip_idemp (chars s : string) :
  rstrip chars (rstrip chars s) = rstrip chars s.
Proof.
  induction s as [|c t IH]; simpl; [done|].
  destruct (rstrip chars t) as [|b t'] eqn:Et.
  - destruct (char_in c chars) eqn:Ec; simpl; [done | by rewrite Ec].
  - change (rstrip chars (String c (String b t')))
      with (match rstrip chars (String b t') with
            | EmptyString =>
                if char_in c chars then EmptyString else String c EmptyString
            | t'' => String c t''
            end).
    by rewrite IH.
Qed.

Lemma rstrip_not_ends_with (chars s : string) (c : ascii) :
  char_in c chars = true → ¬ ends_with c (rstrip chars s).
Proof.
  intros Hc. induction s as [|a t IH]; intros [p Hp]; simpl in Hp.
  - symmetry in Hp. by apply append_snoc_nonempty in Hp.
  - destruct (rstrip chars t) as [|b t'] eqn:Et.
    + destruct (char_in a chars) eqn:Ea.
      * symmetry in Hp. by apply append_snoc_nonempty in Hp.
      * destruct p as [|x p].
        -- rewrite append_nil_l in Hp. injection Hp as ->. congruence.
        -- rewrite append_cons in Hp. injection Hp as _ Hp. symmetry in Hp.
           by apply append_snoc_nonempty in Hp.
    + destruct p as [|x p].
      * rewrite append_nil_l in Hp. discriminate.
      * rewrite append_cons in Hp. injection Hp as _ Hp.
        apply IH. by exists p.
Qed.

Lemma rstrip_slashes (n : nat) : rstrip "/" (slashes n) = EmptyString.
Proof. induction n as [|n IH]; simpl; [done | by rewrite IH]. Qed.



(** ** Sets *)

Lemma intersection_spec (a b : gset string) : intersection a b = a ∩ b.
Proof.
  apply set_eq. intros x. unfold intersection.
  by rewrite elem_of_filter, elem_of_intersection, (comm and).
Qed.

Lemma difference_spec (a b : gset string) : difference a b = a ∖ b.
Proof.
  apply set_eq. intros x. unfold difference.
  by rewrite elem_of_filter, elem_of_difference, (comm and).
Qed.

Lemma truthy_false (a : gset string) : truthy a = false ↔ a = ∅.
Proof.
  unfold truthy. rewrite negb_false_iff. apply bool_decide_eq_true.
Qed.


(** ** The extraction loops *)

(** Running a loop over [l1 ++ l2] is running it over [l1], then, unless an
    exception was raised, over [l2] from the next index. *)
Lemma for_enumerate_app {A} (body : nat → A → M unit) (l1 l2 : list A)
    (i : nat) (s : store) :
  for_enumerate i (l1 ++ l2) body s =
  match for_enumerate i l1 body s with
  | (s', inr _) => for_enumerate (i + length l1) l2 body s'
  | (s', inl e) => (s', inl e)
  end.
Proof.
  revert i s. induction l1 as [|x l1 IH]; intros i s; simpl.
  - unfold ret. by rewrite Nat.add_0_r.
  - unfold bind. destruct (body i x s) as [s' [e|[]]]; [done|].
    rewrite IH. by replace (S i + length l1) with (i + S (length l1)) by lia.
Qed.

Section preserved.
(** A property of the store that printing and adding a normalized
    identifier keep is kept by the whole extraction. *)
Variable Q : store → Prop.
Hypothesis Q_print : ∀ s line, Q s → Q (printed line s).
Hypothesis Q_add :
  ∀ s h, Q s → Q (Store ({[rstrip "/" h]} ∪ values s) (stdout s) (disk s)).

Lemma process_sub_item_preserves filepath i j sub_item s :
  Q s → Q (process_sub_item filepath i j sub_item s).1.
Proof using Q_print Q_add.
  intros HQ. unfold process_sub_item.
  destruct sub_item as [| | | | |?|d]; try by apply Q_print.
  destruct (dict_get "href" d) as [h|]; [|by apply Q_print].
  destruct h; simpl; try done. by apply Q_add.
Qed.

Lemma for_enumerate_preserves {A} (body : nat → A → M unit) :
  (∀ i x s, Q s → Q (body i x s).1) →
  ∀ l i s, Q s → Q (for_enumerate i l body s).1.
Proof using Type.
  intros Hbody l. induction l as [|x l IH]; intros i s HQ; simpl; [done|].
  unfold bind. specialize (Hbody i x s HQ).
  destruct (body i x s) as [s' [e|[]]]; simpl in *; [done|]. by apply IH.
Qed.

Lemma process_item_preserves filepath i item s :
  Q s → Q (process_item filepath i item s).1.
Proof using Q_print Q_add.
  intros HQ. unfold process_item.
  destruct item as [| | | | |?|d]; try by apply Q_print.
  destruct (dict_get "string_list_data" d) as [[| | | | |sub_items|?]|];
    try by apply Q_print.
  apply for_enumerate_preserves; [|done].
  intros. by apply process_sub_item_preserves.
Qed.

Lemma extract_preserves w filepath s : Q s → Q (extract w filepath s).1.
Proof using Q_print Q_add.
  intros HQ. unfold extract, load, bind.
  destruct (files w !! filepath) as [[data|e]|]; simpl; try done.
  destruct (items_to_process data) as [items|]; [|by apply Q_print].
  apply for_enumerate_preserves; [|done].
  intros. by apply process_item_preserves.
Qed.

Lemma get_values_from_json_preserves w filepath s :
  Q (Store ∅ (stdout s) (disk s)) → Q (get_values_from_json w filepath s).1.
Proof using Q_print Q_add.
  intros HQ. unfold get_values_from_json, bind, new_values, try_except.
  destruct (negb (path_exists w filepath)); simpl.
  - exact (Q_print _ _ HQ).
  - pose proof (extract_preserves w filepath _ HQ) as HQ'.
    destruct (extract w filepath _) as [s' [e|[]]]; simpl in *; [|done].
    destruct e; simpl; exact (Q_print _ _ HQ').
Qed.
End preserved.

(** [get_values_from_json] always returns, and what it returns is the set
    bound to [values]. *)
Lemma get_values_from_json_returns w filepath s :
  ∃ s', get_values_from_json w filepath s = (s', inr (values s')).
Proof.
  unfold get_values_from_json, bind, new_values, try_except.
  destruct (negb (path_exists w filepath)); simpl; [by eexists|].
  destruct (extract w filepath _) as [s' [e|[]]]; simpl; [|by eexists].
  destruct e; simpl; by eexists.
Qed.

(** The extraction writes no file. *)
Lemma get_values_from_json_disk w filepath s :
  disk (get_values_from_json w filepath s).1 = disk s.
Proof.
  by apply (get_values_from_json_preserves (λ s', disk s' = disk s)).
Qed.

(** Every element of the returned set is a normalized identifier. *)
Lemma get_values_from_json_normalized w filepath s s' v :
  get_values_from_json w filepath s = (s', inr v) →
  ∀ x, x ∈ v → ∃ h, x = rstrip "/" h.
Proof.
  intros Hrun.
  destruct (get_values_from_json_returns w filepath s) as [s'' Hret].
  rewrite Hret in Hrun. injection Hrun as -> <-.
  pose proof (get_values_from_json_preserves
    (λ s, ∀ x, x ∈ values s → ∃ h, x = rstrip "/" h)) as Hinv.
  specialize (Hinv ltac:(done)).
  assert (∀ s0 h, (∀ x, x ∈ values s0 → ∃ h, x = rstrip "/" h) →
    ∀ x, x ∈ {[rstrip "/" h]} ∪ values s0 → ∃ h, x = rstrip "/" h) as Hadd.
  { intros s0 h H0 x [->%elem_of_singleton|?]%elem_of_union; eauto. }
  specialize (Hinv Hadd w filepath s). rewrite Hret in Hinv. apply Hinv.
  simpl. intros x Hx. by apply not_elem_of_empty in Hx.
Qed.

Lemma items_to_process_unrecognized data :
  unrecognized_shape data → items_to_process data = None.
Proof.
  intros [Hl Hd]. destruct data as [| | | | |items|d]; simpl; try done.
  - by destruct (Hl items).
  - specialize (Hd d). destruct (dict_get _ d) as [[]|]; try done.
    by edestruct Hd.
Qed.

Lemma path_exists_true w filepath f :
  files w !! filepath = Some f → path_exists w filepath = true.
Proof. intros H. unfold path_exists. apply bool_decide_eq_true. by eexists. Qed.

Lemma path_exists_false w filepath :
  files w !! filepath = None → path_exists w filepath = false.
Proof.
  intros H. unfold path_exists. apply bool_decide_eq_false.
  rewrite H. by intros [? ?].
Qed.

(** On a document with a recognized shape the function is the extraction
    over the selected records. *)
Lemma get_values_from_json_records w filepath data items s :
  files w !! filepath = Some (Document data) →
  items_to_process data = Some items →
  get_values_from_json w filepath s = extract_records filepath items s.
Proof.
  intros Hf Hi. unfold get_values_from_json, extract_records.
  rewrite (path_exists_true _ _ _ Hf). simpl.
  unfold bind, try_except, extract, load, bind. simpl.
  rewrite Hf. unfold ret. simpl. by rewrite Hi.
Qed.

Lemma get_values_from_json_unrecognized w filepath data s :
  files w !! filepath = Some (Document data) →
  items_to_process data = None →
  get_values_from_json w filepath s =
    (printed (msg_unexpected_structure filepath) (Store ∅ (stdout s) (disk s)),
     inr ∅).
Proof.
  intros Hf Hi. unfold get_values_from_json.
  rewrite (path_exists_true _ _ _ Hf). simpl.
  unfold bind, try_except, extract, load, bind. simpl.
  rewrite Hf. unfold ret. simpl. by rewrite Hi.
Qed.

(** C4 (as amended): a parsed list is used directly as the list of records;
    a parsed dict that binds the key ['relationships_following'] to a list
    has that list used; every other parsed value gives the
    unexpected-structure line and the empty set, with nothing extracted. *)
Theorem shape_selects_records w filepath s data :
  files w !! filepath = Some (Document data) →
  (∀ items, data = JList items →
     get_values_from_json w filepath s = extract_records filepath items s) ∧
  (∀ d items, data = JDict d →
     dict_get "relationships_following" d = Some (JList items) →
     get_values_from_json w filepath s = extract_records filepath items s) ∧
  (unrecognized_shape data →
     get_values_from_json w filepath s =
       (printed (msg_unexpected_structure filepath)
          (Store ∅ (stdout s) (disk s)), inr ∅)).
Proof.
  intros Hf. repeat split.
  - intros items ->. by apply (get_values_from_json_records _ _ _ _ _ Hf).
  - intros d items -> Hd.
    apply (get_values_from_json_records _ _ _ _ _ Hf). simpl. by rewrite Hd.
  - intros Hu. apply (get_values_from_json_unrecognized _ _ _ _ Hf).
    by apply items_to_process_unrecognized.
Qed.

Lemma shape_selects_records_witness :
  get_values_from_json sample_world "following.json" s0 =
  extract_records "following.json"
    [record [sub_record (JStr "https://insta.com/b/")];
     record [sub_record (JStr "https://insta.com/c")]] s0.
Proof.
  refine (proj1 (proj2 (shape_selects_records sample_world "following.json"
                          s0 following_doc _)) _ _ _ _);
    reflexivity.
Defined.

(** C4 (as stated) fails: a dict with a key whose value is a list, under
    another name than ['relationships_following'], does not have that list
    used; the result is empty although the list holds an identifier. *)
Lemma other_key_is_not_used :
  dict_get "relationships_followers"
    [("relationships_followers", JList other_key_records)]
    = Some (JList other_key_records) ∧
  (get_values_from_json (world_of other_key_doc) "followers_1.json" s0).2
    = inr ∅ ∧
  (extract_records "followers_1.json" other_key_records s0).2
    = inr {["https://insta.com/a"]} ∧
  get_values_from_json (world_of other_key_doc) "followers_1.json" s0
    ≠ extract_records "followers_1.json" other_key_records s0.
Proof.
  split; [reflexivity|]. split; [by vm_compute|]. split; [by vm_compute|].
  intros H. apply (f_equal (λ r, stdout r.1)) in H. vm_compute in H.
  discriminate.
Qed.

(** ** Normalization of the extracted identifiers *)




(** C10: no element of the returned set ends with the character ['/']; an
    ['href'] made only of slashes is normalized to the empty string, and the
    empty string is added to the set. *)
Theorem no_trailing_slash_in_result w filepath s s' v :
  get_values_from_json w filepath s = (s', inr v) →
  (∀ x, x ∈ v → ¬ ends_with "/" x) ∧
  (∀ n d i j st, dict_get "href" d = Some (JStr (slashes n)) →
     process_sub_item filepath i j (JDict d) st =
       (Store ({[EmptyString]} ∪ values st) (stdout st) (disk st), inr tt)).
Proof.
  intros Hrun. split.
  - intros x Hx.
    destruct (get_values_from_json_normalized _ _ _ _ _ Hrun x Hx) as [h ->].
    by apply rstrip_not_ends_with.
  - intros n d i j st Hd. unfold process_sub_item. rewrite Hd.
    unfold bind, call_rstrip, ret, values_add. by rewrite rstrip_slashes.
Qed.

Lemma no_trailing_slash_in_result_witness :
  (∀ x, x ∈ ({[EmptyString]} : gset string) → ¬ ends_with "/" x) ∧
  (∀ n d i j st, dict_get "href" d = Some (JStr (slashes n)) →
     process_sub_item "followers_1.json" i j (JDict d) st =
       (Store ({[EmptyString]} ∪ values st) (stdout st) (disk st), inr tt)).
Proof.
  apply (no_trailing_slash_in_result (world_of lone_slash_doc)
           "followers_1.json" s0 (Store {[EmptyString]} [] ∅) {[EmptyString]}).
  vm_compute. reflexivity.
Defined.

(** ** A value of ['href'] that is not a string *)

Lemma call_rstrip_raises v chars s :
  (∀ h, v ≠ JStr h) →
  call_rstrip v chars s = (s, inl (AttributeError (msg_no_rstrip v))).
Proof. intros Hv. destruct v; try done. by destruct (Hv s1). Qed.

(** C9: when a sub-record's ['href'] is not a string, the records before it
    and the sub-records before it having been processed without an
    exception, the function returns the set as it was just before that
    sub-record, and the only line printed after that point is the one of the
    generic handler: nothing of the remaining sub-records and records is
    processed. *)
Theorem non_string_href_stops_extraction
    w filepath s data items ipre d ipost spre sd spost v s1 s2 :
  files w !! filepath = Some (Document data) →
  items_to_process data = Some items →
  items = (ipre ++ JDict d :: ipost)%list →
  dict_get "string_list_data" d
    = Some (JList (spre ++ JDict sd :: spost)%list) →
  dict_get "href" sd = Some v →
  (∀ h, v ≠ JStr h) →
  for_enumerate 0 ipre (process_item filepath) (Store ∅ (stdout s) (disk s))
    = (s1, inr tt) →
  for_enumerate 0 spre (process_sub_item filepath (length ipre)) s1
    = (s2, inr tt) →
  get_values_from_json w filepath s =
    (printed (msg_unexpected_error filepath (AttributeError (msg_no_rstrip v)))
       s2,
     inr (values s2)).
Proof.
  intros Hf Hi -> Hd Hsd Hv Hpre Hsub.
  rewrite (get_values_from_json_records _ _ _ _ _ Hf Hi).
  unfold extract_records, bind, new_values, try_except.
  rewrite for_enumerate_app, Hpre. simpl.
  unfold bind, process_item. rewrite Hd.
  rewrite for_enumerate_app, Hsub. simpl.
  unfold bind, process_sub_item. rewrite Hsd. unfold bind.
  by rewrite (call_rstrip_raises _ _ _ Hv).
Qed.

Lemma non_string_href_stops_extraction_witness :
  get_values_from_json (world_of partial_doc) "followers_1.json" s0 =
    (printed (msg_unexpected_error "followers_1.json"
                (AttributeError (msg_no_rstrip (JInt 5))))
       (Store {["x"; "y"]} [] ∅),
     inr {["x"; "y"]}).
Proof.
  refine (non_string_href_stops_extraction (world_of partial_doc)
    "followers_1.json" s0 partial_doc _
    [record [sub_record (JStr "x/")]]
    [("title", JStr EmptyString);
     ("string_list_data",
      JList [sub_record (JStr "y"); sub_record (JInt 5);
             sub_record (JStr "z")])]
    [record [sub_record (JStr "w")]]
    [sub_record (JStr "y")] [("href", JInt 5)] [sub_record (JStr "z")]
    (JInt 5) (Store {["x"]} [] ∅) (Store {["x"; "y"]} [] ∅)
    _ _ _ _ _ _ _ _);
    first [reflexivity | by intros h].
Defined.

(** C5: on a document whose first record holds a sub-record with a number
    as ['href'], followed by a well-formed record, the function returns the
    empty set: the identifier of the well-formed record is not extracted,
    and the only line printed is the one of the generic handler.  The
    well-formed record alone yields its identifier. *)
Theorem malformed_href_loses_later_records :
  get_values_from_json (world_of numeric_href_doc) "followers_1.json" s0 =
    (Store ∅ [msg_unexpected_error "followers_1.json"
                (AttributeError "'int' object has no attribute 'rstrip'")] ∅,
     inr ∅) ∧
  (get_values_from_json
     (world_of (JList [record [sub_record (JStr "https://insta.com/a")]]))
     "followers_1.json" s0).2 = inr {["https://insta.com/a"]}.
Proof. split; vm_compute; reflexivity. Qed.

(** ** Extraction when every ['href'] is a string *)

Lemma identifiers_app (hs1 hs2 : list json) :
  identifiers (hs1 ++ hs2) = identifiers hs1 ∪ identifiers hs2.
Proof. unfold identifiers. by rewrite omap_app, list_to_set_app_L. Qed.

Lemma sub_items_complete filepath i (sub_items : list json) j s :
  Forall is_str (concat (sub_item_hrefs <$> sub_items)) →
  ∃ s', for_enumerate j sub_items (process_sub_item filepath i) s
          = (s', inr tt) ∧
        values s' = values s ∪ identifiers (concat (sub_item_hrefs <$> sub_items)).
Proof.
  revert j s. induction sub_items as [|x l IH]; intros j s Hall.
  - exists s. split; [done|]. unfold identifiers. simpl.
    by rewrite (right_id_L ∅ (∪)).
  - rewrite fmap_cons, concat_cons in Hall.
    apply Forall_app in Hall as [Hx Hl].
    assert (∃ s1, process_sub_item filepath i j x s = (s1, inr tt) ∧
              values s1 = values s ∪ identifiers (sub_item_hrefs x))
      as (s1 & Hs1 & Hv1).
    { unfold process_sub_item, sub_item_hrefs in *.
      destruct x as [| | | | |?|d];
        try (eexists; split; [reflexivity|]; unfold identifiers; simpl;
             by rewrite (right_id_L ∅ (∪))).
      destruct (dict_get "href" d) as [h|];
        [|eexists; split; [reflexivity|]; unfold identifiers; simpl;
          by rewrite (right_id_L ∅ (∪))].
      apply Forall_singleton in Hx as [h' ->].
      eexists; split; [reflexivity|]. unfold identifiers. simpl.
      rewrite (right_id_L ∅ (∪)). apply (comm_L (∪)). }
    destruct (IH (S j) s1 Hl) as (s' & Hs' & Hv').
    exists s'. split.
    + simpl. unfold bind. by rewrite Hs1.
    + rewrite Hv', Hv1, fmap_cons, concat_cons, identifiers_app.
      by rewrite (assoc_L (∪)).
Qed.

Lemma items_complete filepath (items : list json) i s :
  Forall is_str (hrefs items) →
  ∃ s', for_enumerate i items (process_item filepath) s = (s', inr tt) ∧
        values s' = values s ∪ identifiers (hrefs items).
Proof.
  unfold hrefs. revert i s. induction items as [|x l IH]; intros i s Hall.
  - exists s. split; [done|]. unfold identifiers. simpl.
    by rewrite (right_id_L ∅ (∪)).
  - rewrite fmap_cons, concat_cons in Hall.
    apply Forall_app in Hall as [Hx Hl].
    assert (∃ s1, process_item filepath i x s = (s1, inr tt) ∧
              values s1 = values s ∪ identifiers (item_hrefs x))
      as (s1 & Hs1 & Hv1).
    { unfold process_item, item_hrefs in *.
      destruct x as [| | | | |?|d];
        try (eexists; split; [reflexivity|]; unfold identifiers; simpl;
             by rewrite (right_id_L ∅ (∪))).
      destruct (dict_get "string_list_data" d) as [[| | | | |sub_items|?]|];
        try (eexists; split; [reflexivity|]; unfold identifiers; simpl;
             by rewrite (right_id_L ∅ (∪))).
      by apply sub_items_complete. }
    destruct (IH (S i) s1 Hl) as (s' & Hs' & Hv').
    exists s'. split.
    + simpl. unfold bind. by rewrite Hs1.
    + rewrite Hv', Hv1, fmap_cons, concat_cons, identifiers_app.
      by rewrite (assoc_L (∪)).
Qed.

(** When every value found under ['href'] is a string, records and
    sub-records of the wrong type or without their field are skipped and
    the function returns the normalized identifiers of all the others. *)
Lemma extraction_skips_malformed_items w filepath data items s :
  files w !! filepath = Some (Document data) →
  items_to_process data = Some items →
  Forall is_str (hrefs items) →
  ∃ s', get_values_from_json w filepath s
          = (s', inr (identifiers (hrefs items))).
Proof.
  intros Hf Hi Hall.
  rewrite (get_values_from_json_records _ _ _ _ _ Hf Hi).
  unfold extract_records, bind, new_values, try_except.
  destruct (items_complete filepath items 0 (Store ∅ (stdout s) (disk s)) Hall)
    as (s' & -> & Hv).
  exists s'. unfold get_values. simpl in Hv.
  by rewrite Hv, (left_id_L ∅ (∪)).
Qed.

(** ** Sorting *)






(** ** Writing the report *)























Lemma save_report_unwritable w out followers following s msg :
  write_errors w !! out = Some msg →
  save_report w out followers following s =
    (printed (msg_write_failed out) s, inr tt).
Proof.
  intros Hw. unfold save_report, try_except, write_report, open_w, bind.
  by rewrite Hw.
Qed.

(** ** The derived sets *)

(** C2: the three derived sets cover exactly the union of the two input
    sets and are pairwise disjoint. *)
Theorem derived_sets_partition (followers following : gset string) :
  mutuals followers following ∪ not_following_back followers following
    ∪ you_dont_follow_back followers following = followers ∪ following ∧
  mutuals followers following ## not_following_back followers following ∧
  mutuals followers following ## you_dont_follow_back followers following ∧
  not_following_back followers following
    ## you_dont_follow_back followers following.
Proof.
  unfold mutuals, not_following_back, you_dont_follow_back.
  rewrite intersection_spec, !difference_spec.
  split.
  - apply set_eq. intros x.
    rewrite !elem_of_union, elem_of_intersection, !elem_of_difference.
    destruct (decide (x ∈ followers)), (decide (x ∈ following)); tauto.
  - repeat split; apply elem_of_disjoint; intros x;
      rewrite ?elem_of_intersection, ?elem_of_difference; tauto.
Qed.

(** ** The run as a whole *)

Lemma read_lists_returns w followers_file following_file s :
  ∃ s1 followers following,
    read_lists w followers_file following_file s
      = (s1, inr (followers, following)) ∧
    disk s1 = disk s.
Proof.
  unfold read_lists, bind.
  destruct (print _ s) as [sa ra] eqn:Ha.
  unfold print in Ha. injection Ha as <- <-.
  destruct (get_values_from_json_returns w followers_file
              (Store (values s)
                 (stdout s ++ ["Attempting to read followers data from: "
                               +:+ followers_file]) (disk s)))
    as [sb Hb].
  pose proof (get_values_from_json_disk w followers_file
              (Store (values s)
                 (stdout s ++ ["Attempting to read followers data from: "
                               +:+ followers_file]) (disk s))) as Hdb.
  rewrite Hb in Hdb |- *. simpl in Hdb.
  unfold print at 1 2. simpl.
  match goal with
  | |- context [get_values_from_json w following_file ?st] =>
      destruct (get_values_from_json_returns w following_file st) as [sc Hc];
      pose proof (get_values_from_json_disk w following_file st) as Hdc;
      rewrite Hc in Hdc |- *; simpl in Hdc
  end.
  unfold print, ret. simpl.
  eexists _, _, _. split; [reflexivity|]. simpl. congruence.
Qed.

Lemma analyze_instagram_lists_unfold
    w followers_file following_file output_file s s1 followers following :
  read_lists w followers_file following_file s
    = (s1, inr (followers, following)) →
  analyze_instagram_lists w followers_file following_file output_file s =
    if negb (truthy followers) && negb (truthy following)
    then (printed msg_no_data s1, inr tt)
    else save_report w output_file followers following s1.
Proof.
  intros Hr. unfold analyze_instagram_lists, bind. rewrite Hr. simpl.
  by destruct (negb (truthy followers) && negb (truthy following)).
Qed.

Lemma short_circuit_iff (followers following : gset string) :
  negb (truthy followers) && negb (truthy following) = true
  ↔ followers = ∅ ∧ following = ∅.
Proof.
  rewrite andb_true_iff, !negb_true_iff, !truthy_false. done.
Qed.











(** C8: with an export that holds an identifier the destination's encoding
    cannot encode (here a character above 127 under ASCII), the run does
    not stop on two empty sets, opens the destination and writes the
    header, the first section and the title of the second; the write of the
    entry raises [UnicodeEncodeError], which [except IOError] does not
    catch: the run ends with that exception and the destination is left
    without the entries of the second section, without the third section
    and without the final blank lines. *)
Theorem unencodable_identifier_truncates_report :
  (analyze_instagram_lists accented_world "followers_1.json" "following.json"
     "instagram_analysis.txt" s0).2
    = inl (UnicodeEncodeError
             (msg_cannot_encode
                ("- https://insta.com/caf" +:+ String "233"%char nl))) ∧
  disk (analyze_instagram_lists accented_world "followers_1.json"
          "following.json" "instagram_analysis.txt" s0).1
    !! "instagram_analysis.txt"
    = Some (unlines ["--- Instagram List Analysis ---"; EmptyString;
                     title_not_following_back; "- None"; EmptyString;
                     title_you_dont_follow_back]).
Proof. split; vm_compute; reflexivity. Qed.

(** ** Whole-file failures *)

(** C6: a path that does not exist, a file whose loading raises (a JSON
    decoding error or any other exception) and a document of unrecognized
    shape each make the function return the empty set after printing one
    line that names the condition; the function returns on every input,
    so that the run always goes on to the second extraction and to the
    comparison of the two sets. *)
Theorem whole_file_failures_are_recovered w filepath s :
  (files w !! filepath = None →
     get_values_from_json w filepath s =
       (printed (msg_not_found filepath) (Store ∅ (stdout s) (disk s)),
        inr ∅)) ∧
  (∀ e, files w !! filepath = Some (Unloadable e) →
     get_values_from_json w filepath s =
       (printed (msg_except filepath e) (Store ∅ (stdout s) (disk s)),
        inr ∅)) ∧
  (∀ data, files w !! filepath = Some (Document data) →
     unrecognized_shape data →
     get_values_from_json w filepath s =
       (printed (msg_unexpected_structure filepath)
          (Store ∅ (stdout s) (disk s)), inr ∅)) ∧
  (∃ s' v, get_values_from_json w filepath s = (s', inr v)) ∧
  (∀ following_file,
     ∃ s1 followers following,
       read_lists w filepath following_file s
         = (s1, inr (followers, following))) ∧
  (∀ followers_file,
     ∃ s1 followers following,
       read_lists w followers_file filepath s
         = (s1, inr (followers, following))).
Proof.
  split; [|split; [|split; [|split; [|split]]]].
  - intros Hf. unfold get_values_from_json.
    by rewrite (path_exists_false _ _ Hf).
  - intros e Hf. unfold get_values_from_json.
    rewrite (path_exists_true _ _ _ Hf). simpl.
    unfold bind, try_except, extract, load, bind. simpl. rewrite Hf.
    by destruct e.
  - intros data Hf Hu.
    apply (get_values_from_json_unrecognized _ _ _ _ Hf).
    by apply items_to_process_unrecognized.
  - destruct (get_values_from_json_returns w filepath s) as [s' Hs'].
    by eexists _, _.
  - intros following_file.
    destruct (read_lists_returns w filepath following_file s)
      as (s1 & a & b & Hr & _).
    by eexists _, _, _.
  - intros followers_file.
    destruct (read_lists_returns w followers_file filepath s)
      as (s1 & a & b & Hr & _).
    by eexists _, _, _.
Qed.

Lemma whole_file_failures_are_recovered_witness :
  get_values_from_json broken_world "missing.json" s0 =
    (Store ∅ [msg_not_found "missing.json"] ∅, inr ∅) ∧
  get_values_from_json broken_world "followers_1.json" s0 =
    (Store ∅ [msg_invalid_json "followers_1.json"] ∅, inr ∅) ∧
  get_values_from_json broken_world "following.json" s0 =
    (Store ∅ [msg_unexpected_structure "following.json"] ∅, inr ∅).
Proof.
  split; [|split].
  - apply (proj1 (whole_file_failures_are_recovered broken_world
                    "missing.json" s0)).
    reflexivity.
  - apply (proj1 (proj2 (whole_file_failures_are_recovered broken_world
                           "followers_1.json" s0))
             (JSONDecodeError "Expecting value: line 1 column 1 (char 0)")).
    reflexivity.
  - apply (proj1 (proj2 (proj2 (whole_file_failures_are_recovered broken_world
                                  "following.json" s0)))
             (JStr "hello")).
    + reflexivity.
    + split; [done|]. intros d items H. discriminate.
Defined.

(** * Further properties *)

(** ** The effect of an extraction does not depend on the store *)

Lemma uniform_ret {A} (a : A) : uniform (ret a).
Proof.
  exists ∅, [], (inr a). intros [v o d]. unfold ret. simpl.
  by rewrite (right_id_L ∅ (∪)), (right_id_L [] app).
Qed.

Lemma uniform_raise {A} (e : exn) : uniform (raise (A:=A) e).
Proof.
  exists ∅, [], (inl e). intros [v o d]. unfold raise. simpl.
  by rewrite (right_id_L ∅ (∪)), (right_id_L [] app).
Qed.

Lemma uniform_print (line : string) : uniform (print line).
Proof.
  exists ∅, [line], (inr tt). intros s. unfold print.
  by rewrite (right_id_L ∅ (∪)).
Qed.

Lemma uniform_values_add (x : string) : uniform (values_add x).
Proof.
  exists {[x]}, [], (inr tt). intros s. unfold values_add.
  by rewrite (right_id_L [] app), (comm_L (∪)).
Qed.

Lemma uniform_bind {A B} (c : M A) (k : A → M B) :
  uniform c → (∀ a, uniform (k a)) → uniform (bind c k).
Proof.
  intros (add1 & lines1 & r1 & Hc) Hk. destruct r1 as [e|a].
  - exists add1, lines1, (inl e). intros s. unfold bind. by rewrite Hc.
  - destruct (Hk a) as (add2 & lines2 & r2 & Hka).
    exists (add1 ∪ add2), (lines1 ++ lines2)%list, r2. intros s.
    unfold bind. rewrite Hc, Hka. simpl.
    by rewrite (assoc_L (∪)), (assoc_L app).
Qed.

Lemma uniform_try_except {A} (body : M A) (handler : exn → M A) :
  uniform body → (∀ e, uniform (handler e)) → uniform (try_except body handler).
Proof.
  intros (add1 & lines1 & r1 & Hc) Hh. destruct r1 as [e|a].
  - destruct (Hh e) as (add2 & lines2 & r2 & Hhe).
    exists (add1 ∪ add2), (lines1 ++ lines2)%list, r2. intros s.
    unfold try_except. rewrite Hc, Hhe. simpl.
    by rewrite (assoc_L (∪)), (assoc_L app).
  - exists add1, lines1, (inr a). intros s. unfold try_except. by rewrite Hc.
Qed.

Lemma uniform_for_enumerate {A} (body : nat → A → M unit) (l : list A) i :
  (∀ i x, uniform (body i x)) → uniform (for_enumerate i l body).
Proof.
  intros Hbody. revert i. induction l as [|x l IH]; intros i; simpl.
  - apply uniform_ret.
  - apply uniform_bind; [apply Hbody | intros _; apply IH].
Qed.

Lemma uniform_process_sub_item filepath i j sub_item :
  uniform (process_sub_item filepath i j sub_item).
Proof.
  unfold process_sub_item.
  destruct sub_item as [| | | | |?|d]; try apply uniform_print.
  destruct (dict_get "href" d) as [h|]; [|apply uniform_print].
  apply uniform_bind; [|intros; apply uniform_values_add].
  destruct h; simpl; first [apply uniform_ret | apply uniform_raise].
Qed.

Lemma uniform_process_item filepath i item :
  uniform (process_item filepath i item).
Proof.
  unfold process_item.
  destruct item as [| | | | |?|d]; try apply uniform_print.
  destruct (dict_get "string_list_data" d) as [[| | | | |sub_items|?]|];
    try apply uniform_print.
  apply uniform_for_enumerate. intros. apply uniform_process_sub_item.
Qed.

Lemma uniform_extract w filepath : uniform (extract w filepath).
Proof.
  unfold extract. apply uniform_bind.
  - unfold load. destruct (files w !! filepath) as [[data|e]|];
      first [apply uniform_ret | apply uniform_raise].
  - intros data. destruct (items_to_process data) as [items|].
    + apply uniform_for_enumerate. intros. apply uniform_process_item.
    + apply uniform_print.
Qed.

Lemma get_values_from_json_effect w filepath :
  ∃ (v : gset string) (lines : list string),
    ∀ s, get_values_from_json w filepath s
         = (Store v (stdout s ++ lines) (disk s), inr v).
Proof.
  assert (uniform
    (if negb (path_exists w filepath) then print (msg_not_found filepath)
     else try_except (extract w filepath)
            (λ e, match e with
                  | JSONDecodeError _ => print (msg_invalid_json filepath)
                  | _ => print (msg_unexpected_error filepath e)
                  end))) as (add & lines & r & Hbody).
  { destruct (negb (path_exists w filepath)); [apply uniform_print|].
    apply uniform_try_except; [apply uniform_extract|].
    intros e. destruct e; apply uniform_print. }
  exists add, lines. intros s.
  destruct (get_values_from_json_returns w filepath s) as [s' Hs'].
  revert Hs'. unfold get_values_from_json, bind, new_values, get_values.
  destruct (negb (path_exists w filepath)).
  - unfold bind. rewrite Hbody. simpl. rewrite (left_id_L ∅ (∪)).
    by destruct r as [e|[]].
  - rewrite Hbody. simpl. rewrite (left_id_L ∅ (∪)).
    by destruct r as [e|[]].
Qed.

(** X1: what a call of [get_values_from_json] does is fixed by the files and
    the path alone: whatever has been collected or printed before, it
    returns the same set, appends the same lines to the output and changes
    no file.  In particular a second extraction of the same file returns
    the same set as the first. *)
Theorem extraction_is_repeatable w filepath :
  ∃ (v : gset string) (lines : list string),
    (∀ s, get_values_from_json w filepath s
          = (Store v (stdout s ++ lines) (disk s), inr v)) ∧
    (∀ s, (get_values_from_json w filepath ;; get_values_from_json w filepath) s
          = (Store v (stdout s ++ lines ++ lines) (disk s), inr v)).
Proof.
  destruct (get_values_from_json_effect w filepath) as (v & lines & Hv).
  exists v, lines. split; [done|]. intros s.
  unfold bind. rewrite !Hv. simpl. by rewrite (assoc_L app).
Qed.

(** ** The returned set, in general *)

Lemma str_prefix_all (hs : list json) : Forall is_str hs → str_prefix hs = hs.
Proof.
  induction 1 as [|v hs [h ->] _ IH]; simpl; [done | by rewrite IH].
Qed.

Lemma str_prefix_app_all (hs1 hs2 : list json) :
  Forall is_str hs1 → str_prefix (hs1 ++ hs2) = (hs1 ++ str_prefix hs2)%list.
Proof.
  induction 1 as [|v hs [h ->] _ IH]; simpl; [done | by rewrite IH].
Qed.

Lemma str_prefix_app_stop (hs1 hs2 : list json) :
  ¬ Forall is_str hs1 → str_prefix (hs1 ++ hs2) = str_prefix hs1.
Proof.
  induction hs1 as [|v hs IH]; intros Hn.
  - destruct Hn. constructor.
  - destruct v; simpl; try done. f_equal. apply IH.
    intros Hall. apply Hn. constructor; [by eexists | done].
Qed.

Lemma sub_items_end filepath i (sub_items : list json) j s :
  ends_at_first_non_string (concat (sub_item_hrefs <$> sub_items)) s
    (for_enumerate j sub_items (process_sub_item filepath i) s).
Proof.
  revert j s. induction sub_items as [|x l IH]; intros j s.
  - split; simpl; [|constructor].
    unfold identifiers. simpl. by rewrite (right_id_L ∅ (∪)).
  - rewrite fmap_cons, concat_cons. simpl. unfold bind.
    assert (ends_at_first_non_string (sub_item_hrefs x) s
              (process_sub_item filepath i j x s)) as [Hv Hr].
    { unfold process_sub_item, sub_item_hrefs.
      destruct x as [| | | | |?|d];
        try (split; simpl; [|constructor]; unfold identifiers; simpl;
             by rewrite (right_id_L ∅ (∪))).
      destruct (dict_get "href" d) as [h|];
        [|split; simpl; [|constructor]; unfold identifiers; simpl;
          by rewrite (right_id_L ∅ (∪))].
      destruct h; split; simpl;
        try (unfold identifiers; simpl; by rewrite (right_id_L ∅ (∪)));
        try (intros Hall; apply Forall_singleton in Hall as [? ?];
             discriminate).
      - unfold identifiers. simpl. rewrite (right_id_L ∅ (∪)).
        apply (comm_L (∪)).
      - apply Forall_singleton. by eexists. }
    destruct (process_sub_item filepath i j x s) as [s1 [e|[]]];
      simpl in Hv, Hr.
    + split; simpl.
      * by rewrite str_prefix_app_stop.
      * intros Hall. by apply Forall_app in Hall as [? _].
    + destruct (IH (S j) s1) as [Hv' Hr']. split.
      * rewrite Hv', Hv, (str_prefix_app_all _ _ Hr), identifiers_app.
        rewrite (str_prefix_all _ Hr). by rewrite (assoc_L (∪)).
      * destruct (for_enumerate (S j) l _ s1) as [s2 [e|[]]]; simpl in *.
        -- intros Hall. by apply Forall_app in Hall as [_ ?].
        -- by apply Forall_app.
Qed.

Lemma items_end filepath (items : list json) i s :
  ends_at_first_non_string (hrefs items) s
    (for_enumerate i items (process_item filepath) s).
Proof.
  unfold hrefs. revert i s. induction items as [|x l IH]; intros i s.
  - split; simpl; [|constructor].
    unfold identifiers. simpl. by rewrite (right_id_L ∅ (∪)).
  - rewrite fmap_cons, concat_cons. simpl. unfold bind.
    assert (ends_at_first_non_string (item_hrefs x) s
              (process_item filepath i x s)) as [Hv Hr].
    { unfold process_item, item_hrefs.
      destruct x as [| | | | |?|d];
        try (split; simpl; [|constructor]; unfold identifiers; simpl;
             by rewrite (right_id_L ∅ (∪))).
      destruct (dict_get "string_list_data" d) as [[| | | | |sub_items|?]|];
        try (split; simpl; [|constructor]; unfold identifiers; simpl;
             by rewrite (right_id_L ∅ (∪))).
      apply sub_items_end. }
    destruct (process_item filepath i x s) as [s1 [e|[]]]; simpl in Hv, Hr.
    + split; simpl.
      * by rewrite str_prefix_app_stop.
      * intros Hall. by apply Forall_app in Hall as [? _].
    + destruct (IH (S i) s1) as [Hv' Hr']. split.
      * rewrite Hv', Hv, (str_prefix_app_all _ _ Hr), identifiers_app.
        rewrite (str_prefix_all _ Hr). by rewrite (assoc_L (∪)).
      * destruct (for_enumerate (S i) l _ s1) as [s2 [e|[]]]; simpl in *.
        -- intros Hall. by apply Forall_app in Hall as [_ ?].
        -- by apply Forall_app.
Qed.

Lemma extract_records_result filepath items s :
  (extract_records filepath items s).2
    = inr (identifiers (str_prefix (hrefs items))).
Proof.
  unfold extract_records, bind, new_values, try_except.
  destruct (items_end filepath items 0 (Store ∅ (stdout s) (disk s)))
    as [Hv Hr].
  destruct (for_enumerate 0 items _ _) as [s1 [e|[]]]; simpl in Hv.
  - destruct e; simpl; by rewrite Hv, (left_id_L ∅ (∪)).
  - simpl. by rewrite Hv, (left_id_L ∅ (∪)).
Qed.

(** X2: on a document of a recognized shape the function returns the
    normalized identifiers of the values found under ['href'], in document
    order, up to the first one that is not a string; records and
    sub-records of the wrong type or without their field contribute
    nothing and stop nothing. *)
Theorem extraction_result w filepath data items s :
  files w !! filepath = Some (Document data) →
  items_to_process data = Some items →
  (get_values_from_json w filepath s).2
    = inr (identifiers (str_prefix (hrefs items))).
Proof.
  intros Hf Hi. rewrite (get_values_from_json_records _ _ _ _ _ Hf Hi).
  apply extract_records_result.
Qed.

Lemma extraction_result_witness :
  (get_values_from_json (world_of partial_doc) "followers_1.json" s0).2
    = inr (identifiers (str_prefix (hrefs
        [record [sub_record (JStr "x/")];
         record [sub_record (JStr "y"); sub_record (JInt 5);
                 sub_record (JStr "z")];
         record [sub_record (JStr "w")]]))).
Proof.
  apply (extraction_result (world_of partial_doc) "followers_1.json"
           partial_doc); reflexivity.
Defined.

Lemma elem_of_identifiers (hs : list json) (x : string) :
  x ∈ identifiers hs ↔ ∃ h, JStr h ∈ hs ∧ x = rstrip "/" h.
Proof.
  unfold identifiers. rewrite elem_of_list_to_set, list_elem_of_omap. split.
  - intros (v & Hv & Hx). destruct v; try discriminate.
    injection Hx as <-. eauto.
  - intros (h & Hh & ->). by exists (JStr h).
Qed.

Lemma str_prefix_subseteq (hs : list json) (v : json) :
  v ∈ str_prefix hs → v ∈ hs.
Proof.
  induction hs as [|a hs IH]; simpl; [done|].
  destruct a; try (by intros ?%elem_of_nil).
  intros [->|H]%elem_of_cons; [left | right; by apply IH].
Qed.

(** X3: the function invents nothing: every element of the set it returns
    for a document of a recognized shape is a string found under ['href']
    in a sub-record of a record of that document, with its trailing slashes
    stripped. *)
Theorem extraction_is_sound w filepath data items s s' v x :
  files w !! filepath = Some (Document data) →
  items_to_process data = Some items →
  get_values_from_json w filepath s = (s', inr v) →
  x ∈ v →
  ∃ h, JStr h ∈ hrefs items ∧ x = rstrip "/" h.
Proof.
  intros Hf Hi Hrun Hx.
  pose proof (get_values_from_json_records _ _ _ _ s Hf Hi) as Heq.
  pose proof (extract_records_result filepath items s) as Hres.
  rewrite <- Heq, Hrun in Hres. simpl in Hres. injection Hres as ->.
  apply elem_of_identifiers in Hx as (h & Hh & ->).
  exists h. split; [|done]. by apply str_prefix_subseteq.
Qed.

Lemma extraction_is_sound_witness :
  ∃ h, JStr h ∈ hrefs [record [sub_record (JStr "a/b/");
                                sub_record (JStr "a/b")]]
       ∧ "a/b" = rstrip "/" h.
Proof.
  apply (extraction_is_sound (world_of slash_doc) "followers_1.json"
           slash_doc _ s0 (Store {["a/b"]} [] ∅) {["a/b"]}).
  - reflexivity.
  - reflexivity.
  - vm_compute. reflexivity.
  - apply elem_of_singleton. reflexivity.
Defined.

(** ** The order of the records *)

Lemma hrefs_Permutation (items1 items2 : list json) :
  items1 ≡ₚ items2 → hrefs items1 ≡ₚ hrefs items2.
Proof.
  unfold hrefs. induction 1 as [|x l1 l2 _ IH|x y l|l1 l2 l3 _ IH1 _ IH2].
  - done.
  - rewrite !fmap_cons, !concat_cons. by rewrite IH.
  - rewrite !fmap_cons, !concat_cons. apply Permutation_app_swap_app.
  - by etrans.
Qed.

Lemma identifiers_Permutation (hs1 hs2 : list json) :
  hs1 ≡ₚ hs2 → identifiers hs1 = identifiers hs2.
Proof.
  intros Hp. apply set_eq. intros x. rewrite !elem_of_identifiers.
  split; intros (h & Hh & ->); exists h; split; try done.
  - by rewrite <- Hp.
  - by rewrite Hp.
Qed.

(** X4: when every value under ['href'] is a string, the returned set does
    not depend on the order of the records, nor on whether they come as a
    top-level list or under ['relationships_following']: two documents
    whose lists of records are permutations of each other give the same
    set. *)
Theorem record_order_is_irrelevant
    w1 w2 file1 file2 data1 data2 (items1 items2 : list json) s1 s2 :
  files w1 !! file1 = Some (Document data1) →
  items_to_process data1 = Some items1 →
  files w2 !! file2 = Some (Document data2) →
  items_to_process data2 = Some items2 →
  items1 ≡ₚ items2 →
  Forall is_str (hrefs items1) →
  (get_values_from_json w1 file1 s1).2 = (get_values_from_json w2 file2 s2).2.
Proof.
  intros Hf1 Hi1 Hf2 Hi2 Hp Hall.
  pose proof (hrefs_Permutation _ _ Hp) as Hh.
  assert (Forall is_str (hrefs items2)) as Hall2 by by rewrite <- Hh.
  rewrite (get_values_from_json_records _ _ _ _ _ Hf1 Hi1).
  rewrite (get_values_from_json_records _ _ _ _ _ Hf2 Hi2).
  rewrite !extract_records_result.
  rewrite (str_prefix_all _ Hall), (str_prefix_all _ Hall2).
  f_equal. by apply identifiers_Permutation.
Qed.

Lemma record_order_is_irrelevant_witness :
  (get_values_from_json sample_world "following.json" s0).2
  = (get_values_from_json
       (world_of (JList [record [sub_record (JStr "https://insta.com/c")];
                         record [sub_record (JStr "https://insta.com/b/")]]))
       "followers_1.json" s0).2.
Proof.
  apply (record_order_is_irrelevant sample_world
    (world_of (JList [record [sub_record (JStr "https://insta.com/c")];
                      record [sub_record (JStr "https://insta.com/b/")]]))
    "following.json" "followers_1.json" following_doc
    (JList [record [sub_record (JStr "https://insta.com/c")];
            record [sub_record (JStr "https://insta.com/b/")]])
    [record [sub_record (JStr "https://insta.com/b/")];
     record [sub_record (JStr "https://insta.com/c")]]
    [record [sub_record (JStr "https://insta.com/c")];
     record [sub_record (JStr "https://insta.com/b/")]]).
  - reflexivity.
  - reflexivity.
  - reflexivity.
  - reflexivity.
  - apply perm_swap.
  - repeat constructor; by eexists.
Defined.

(** ** What the normalization removes *)

Lemma ends_with_last_char (c : ascii) (s : string) :
  ends_with c s → last_char s = Some c.
Proof.
  intros [p ->]. induction p as [|x p IH]; [done|].
  rewrite append_cons. simpl.
  destruct (p +:+ String c EmptyString) eqn:E; [|done].
  by apply append_snoc_nonempty in E.
Qed.

Lemma slashes_snoc (n : nat) :
  slashes (S n) = slashes n +:+ String "/"%char EmptyString.
Proof.
  induction n as [|n IH]; [done|].
  change (slashes (S (S n))) with (String "/"%char (slashes (S n))).
  rewrite IH at 1. reflexivity.
Qed.

Lemma rstrip_decompose (h : string) :
  ∃ n, h = rstrip "/" h +:+ slashes n.
Proof.
  induction h as [|c t [n IH]].
  - by exists 0.
  - simpl. destruct (rstrip "/" t) as [|b t'] eqn:Et.
    + rewrite append_nil_l in IH.
      destruct (decide (c = "/"%char)) as [->|Hc].
      * exists (S n). simpl. by rewrite IH at 1.
      * exists n. rewrite append_cons, append_nil_l. by rewrite IH at 1.
    + exists n. rewrite append_cons. by rewrite IH at 1.
Qed.

(** X5: the normalization of line 43 removes trailing slashes and nothing
    else: an ['href'] is its normalized form followed by slashes only, the
    normalized form does not end with a slash, an ['href'] that does not end
    with a slash is kept as it is, and normalizing twice changes nothing
    more. *)
Theorem normalization_only_drops_trailing_slashes (h : string) :
  (∃ n, h = rstrip "/" h +:+ slashes n) ∧
  ¬ ends_with "/" (rstrip "/" h) ∧
  (¬ ends_with "/" h → rstrip "/" h = h) ∧
  rstrip "/" (rstrip "/" h) = rstrip "/" h.
Proof.
  split; [apply rstrip_decompose|]. split; [by apply rstrip_not_ends_with|].
  split; [|apply rstrip_idemp].
  intros Hn. destruct (rstrip_decompose h) as [[|n] Hh].
  - rewrite append_nil_r in Hh. done.
  - destruct Hn. exists (rstrip "/" h +:+ slashes n).
    by rewrite append_assoc, <- slashes_snoc.
Qed.

Lemma normalization_only_drops_trailing_slashes_witness :
  rstrip "/" "https://insta.com/a" = "https://insta.com/a".
Proof.
  apply (proj1 (proj2 (proj2
    (normalization_only_drops_trailing_slashes "https://insta.com/a")))).
  intros H. apply ends_with_last_char in H. discriminate.
Defined.

(** ** Counting the entries of the report *)

Lemma length_sorted_elements (a : gset string) :
  length (sorted (elements a)) = size a.
Proof. unfold sorted. by rewrite merge_sort_Permutation. Qed.

(** X6: the entries listed add up: the mutual entries and the
    not-following-back entries are together as many as the identifiers
    extracted from the following file, and the mutual entries and the
    you-don't-follow-back entries as many as those extracted from the
    followers file. *)
Theorem report_entries_add_up (followers following : gset string) :
  length (sorted (elements (mutuals followers following)))
  + length (sorted (elements (not_following_back followers following)))
    = size following ∧
  length (sorted (elements (mutuals followers following)))
  + length (sorted (elements (you_dont_follow_back followers following)))
    = size followers.
Proof.
  rewrite !length_sorted_elements.
  unfold mutuals, not_following_back, you_dont_follow_back.
  rewrite intersection_spec, !difference_spec. split.
  - rewrite <- size_union.
    + f_equal. apply set_eq. intros x.
      rewrite elem_of_union, elem_of_intersection, elem_of_difference.
      destruct (decide (x ∈ followers)); tauto.
    + apply elem_of_disjoint. intros x.
      rewrite elem_of_intersection, elem_of_difference. tauto.
  - rewrite <- size_union.
    + f_equal. apply set_eq. intros x.
      rewrite elem_of_union, elem_of_intersection, elem_of_difference.
      destruct (decide (x ∈ following)); tauto.
    + apply elem_of_disjoint. intros x.
      rewrite elem_of_intersection, elem_of_difference. tauto.
Qed.

(** ** A destination that cannot be written *)

(** X7: when the destination cannot be opened for writing, a run that does
    not stop on two empty sets prints the could-not-write line after the
    progress lines and ends normally; no file is created or changed. *)
Theorem unwritable_destination
    w followers_file following_file output_file s s1 followers following msg :
  read_lists w followers_file following_file s
    = (s1, inr (followers, following)) →
  ¬ (followers = ∅ ∧ following = ∅) →
  write_errors w !! output_file = Some msg →
  analyze_instagram_lists w followers_file following_file output_file s
    = (printed (msg_write_failed output_file) s1, inr tt) ∧
  disk (printed (msg_write_failed output_file) s1) = disk s.
Proof.
  intros Hr Hne Hw.
  destruct (read_lists_returns w followers_file following_file s)
    as (s1' & a & b & Hr' & Hdisk).
  rewrite Hr in Hr'. injection Hr' as <- <- <-.
  split; [|done].
  rewrite (analyze_instagram_lists_unfold _ _ _ _ _ _ _ _ Hr).
  destruct (negb (truthy followers) && negb (truthy following)) eqn:Hb.
  { by apply short_circuit_iff in Hb. }
  by apply (save_report_unwritable _ _ _ _ _ msg).
Qed.

Lemma unwritable_destination_witness :
  analyze_instagram_lists
    (World (files sample_world)
       {[ "/proc/report.txt" := "Permission denied" ]} ∅)
    "followers_1.json" "following.json" "/proc/report.txt" s0
    = (printed (msg_write_failed "/proc/report.txt") sample_read, inr tt) ∧
  disk (printed (msg_write_failed "/proc/report.txt") sample_read) = disk s0.
Proof.
  apply (unwritable_destination
           (World (files sample_world)
                  {[ "/proc/report.txt" := "Permission denied" ]} ∅)
           "followers_1.json" "following.json" "/proc/report.txt" s0
           sample_read sample_followers sample_following "Permission denied").
  - vm_compute. reflexivity.
  - intros [H _]. vm_compute in H. discriminate.
  - reflexivity.
Defined.

(** ** One side empty, both sides equal *)






(** ** The effect of a run *)




(** ** Missing input files *)

Lemma get_values_from_json_missing w filepath s :
  files w !! filepath = None →
  get_values_from_json w filepath s
    = (Store ∅ (stdout s ++ [msg_not_found filepath]) (disk s), inr ∅).
Proof.
  intros Hf. unfold get_values_from_json.
  by rewrite (path_exists_false _ _ Hf).
Qed.

(** X10: when neither input file exists, the run prints, for each file, the
    attempt line, the file-not-found line and the line counting 0 entries,
    then the no-data line; it creates or changes no file and ends
    normally. *)
Theorem both_files_missing w followers_file following_file output_file s :
  files w !! followers_file = None →
  files w !! following_file = None →
  analyze_instagram_lists w followers_file following_file output_file s
    = (Store ∅
         (stdout s ++
            ["Attempting to read followers data from: " +:+ followers_file;
             msg_not_found followers_file;
             "Extracted 0 entries from " +:+ followers_file;
             "Attempting to read following data from: " +:+ following_file;
             msg_not_found following_file;
             "Extracted 0 entries from " +:+ following_file;
             msg_no_data])
         (disk s),
       inr tt).
Proof.
  intros Hf1 Hf2.
  assert (read_lists w followers_file following_file s
          = (Store ∅
               (stdout s ++
                  ["Attempting to read followers data from: "
                     +:+ followers_file;
                   msg_not_found followers_file;
                   "Extracted 0 entries from " +:+ followers_file;
                   "Attempting to read following data from: "
                     +:+ following_file;
                   msg_not_found following_file;
                   "Extracted 0 entries from " +:+ following_file])
               (disk s),
             inr (∅, ∅))) as Hr.
  { unfold read_lists, bind, print at 1.
    rewrite (get_values_from_json_missing _ _ _ Hf1).
    unfold print at 1 2. cbn [values stdout disk].
    rewrite (get_values_from_json_missing _ _ _ Hf2).
    unfold print, ret. cbn [values stdout disk].
    rewrite size_empty. do 2 f_equal. by rewrite <- !(assoc_L app). }
  rewrite (analyze_instagram_lists_unfold _ _ _ _ _ _ _ _ Hr).
  rewrite (proj2 (short_circuit_iff ∅ ∅)) by done.
  unfold printed. cbn [values stdout disk].
  do 2 f_equal. by rewrite <- !(assoc_L app).
Qed.

Lemma both_files_missing_witness :
  analyze_instagram_lists (World ∅ ∅ ∅) "followers_1.json" "following.json"
    "instagram_analysis.txt" s0
    = (Store ∅
         ["Attempting to read followers data from: followers_1.json";
          "Error: File not found at followers_1.json. Please check the path.";
          "Extracted 0 entries from followers_1.json";
          "Attempting to read following data from: following.json";
          "Error: File not found at following.json. Please check the path.";
          "Extracted 0 entries from following.json";
          "No data extracted from either file. Exiting."]
         ∅,
       inr tt).
Proof.
  apply (both_files_missing (World ∅ ∅ ∅) "followers_1.json" "following.json"
           "instagram_analysis.txt" s0); reflexivity.
Defined.

(** ** The same file on both sides *)



(** ** A document without anomaly *)

Lemma clean_sub_items_silent filepath i (sub_items : list json) j s :
  Forall clean_sub_item sub_items →
  for_enumerate j sub_items (process_sub_item filepath i) s
    = (Store (values s ∪ identifiers (concat (sub_item_hrefs <$> sub_items)))
         (stdout s) (disk s),
       inr tt).
Proof.
  intros Hall. revert j s.
  induction Hall as [|x l (d & h & -> & Hd) _ IH]; intros j s.
  - simpl. unfold ret, identifiers. simpl. rewrite (right_id_L ∅ (∪)).
    by destruct s.
  - simpl. unfold bind. rewrite Hd. unfold bind. simpl. rewrite IH. simpl.
    change (identifiers (JStr h :: ?t))
      with ({[rstrip "/" h]} ∪ identifiers t).
    by rewrite (assoc_L (∪)), (comm_L (∪) (values s)).
Qed.

Lemma clean_items_silent filepath (items : list json) i s :
  Forall clean_item items →
  for_enumerate i items (process_item filepath) s
    = (Store (values s ∪ identifiers (hrefs items)) (stdout s) (disk s),
       inr tt).
Proof.
  intros Hall. revert i s.
  induction Hall as [|x l (d & subs & -> & Hd & Hsubs) _ IH]; intros i s.
  - simpl. unfold ret, identifiers. simpl. rewrite (right_id_L ∅ (∪)).
    by destruct s.
  - simpl. unfold bind. rewrite Hd.
    rewrite (clean_sub_items_silent _ _ _ _ _ Hsubs), IH. simpl.
    unfold hrefs. rewrite fmap_cons, concat_cons, identifiers_app.
    simpl. rewrite Hd. by rewrite (assoc_L (∪)).
Qed.

(** X12: on a document in which every record is a dict with a list under
    ['string_list_data'] and every sub-record a dict with a string under
    ['href'], the function prints nothing and returns the normalized
    identifiers of all the sub-records. *)
Theorem clean_document_is_silent w filepath data items s :
  files w !! filepath = Some (Document data) →
  items_to_process data = Some items →
  Forall clean_item items →
  get_values_from_json w filepath s
    = (Store (identifiers (hrefs items)) (stdout s) (disk s),
       inr (identifiers (hrefs items))).
Proof.
  intros Hf Hi Hall.
  rewrite (get_values_from_json_records _ _ _ _ _ Hf Hi).
  unfold extract_records, bind, new_values, try_except.
  rewrite (clean_items_silent _ _ _ _ Hall). simpl.
  unfold get_values. simpl. by rewrite (left_id_L ∅ (∪)).
Qed.

Lemma clean_document_is_silent_witness :
  get_values_from_json sample_world "followers_1.json" s0
    = (Store (identifiers (hrefs
                [record [sub_record (JStr "https://insta.com/a/")];
                 record [sub_record (JStr "https://insta.com/b")]]))
         [] ∅,
       inr (identifiers (hrefs
              [record [sub_record (JStr "https://insta.com/a/")];
               record [sub_record (JStr "https://insta.com/b")]]))).
Proof.
  apply (clean_document_is_silent sample_world "followers_1.json"
           followers_doc _ s0).
  - reflexivity.
  - reflexivity.
  - repeat constructor.
    + eexists _, _. split; [reflexivity|]. split; [reflexivity|].
      repeat constructor. by eexists _, _.
    + eexists _, _. split; [reflexivity|]. split; [reflexivity|].
      repeat constructor. by eexists _, _.
Defined.

(** ** The script as it is run *)







(** ** Which record a warning names *)

Lemma items_loop_stdout filepath (items : list json) i s :
  ∃ lines, stdout (for_enumerate i items (process_item filepath) s).1
           = (stdout s ++ lines)%list.
Proof.
  destruct (uniform_for_enumerate (process_item filepath) items i
              (uniform_process_item filepath)) as (add & lines & r & H).
  exists lines. by rewrite H.
Qed.

Lemma extract_records_reports filepath (items : list json) i x line s :
  items !! i = Some x →
  Forall is_str (hrefs (take i items)) →
  (∀ st, process_item filepath i x st = (printed line st, inr tt)) →
  line ∈ stdout (extract_records filepath items s).1.
Proof.
  intros Hi Hall Hx.
  unfold extract_records, bind, new_values, try_except.
  rewrite <- (take_drop_middle items i x Hi), for_enumerate_app.
  destruct (items_complete filepath (take i items) 0
              (Store ∅ (stdout s) (disk s)) Hall) as (s1 & -> & _).
  rewrite length_take_le by (apply Nat.lt_le_incl; by eapply lookup_lt_Some).
  simpl. unfold bind. rewrite Hx.
  destruct (items_loop_stdout filepath (drop (S i) items) (S i)
              (printed line s1)) as [lines Hl].
  destruct (for_enumerate (S i) (drop (S i) items) _ (printed line s1))
    as [s2 [e|[]]]; simpl in Hl.
  - assert (line ∈ stdout s2) as Hin.
    { rewrite Hl. apply elem_of_app. left. apply elem_of_app. right.
      by apply list_elem_of_singleton. }
    destruct e; simpl; apply elem_of_app; by left.
  - simpl. rewrite Hl. apply elem_of_app. left. apply elem_of_app. right.
    by apply list_elem_of_singleton.
Qed.

(** X14: a warning names the record it is about.  On a document of a
    recognized shape, when no value under ['href'] in the records before
    position [i] fails to be a string, a record at position [i] that is not
    a dict gets the not-a-dictionary line with the number [i], and one that
    is a dict without a list under ['string_list_data'] gets the
    key-not-found line with the number [i]. *)
Theorem skipped_record_is_reported w filepath data (items : list json) s i x :
  files w !! filepath = Some (Document data) →
  items_to_process data = Some items →
  items !! i = Some x →
  Forall is_str (hrefs (take i items)) →
  ((∀ d, x ≠ JDict d) →
   "Warning: Item at index " +:+ pretty i +:+ " in " +:+ filepath
     +:+ " is not a dictionary. Skipping."
     ∈ stdout (get_values_from_json w filepath s).1) ∧
  (∀ d, x = JDict d →
     (∀ sub_items, dict_get "string_list_data" d ≠ Some (JList sub_items)) →
     "Warning: 'string_list_data' key (or it's not a list) not found in item "
       +:+ pretty i +:+ " in " +:+ filepath +:+ ". Skipping."
       ∈ stdout (get_values_from_json w filepath s).1).
Proof.
  intros Hf Hit Hi Hall.
  rewrite (get_values_from_json_records _ _ _ _ _ Hf Hit). split.
  - intros Hx. apply (extract_records_reports _ _ i x _ _ Hi Hall).
    intros st. unfold process_item. destruct x; try done. by destruct (Hx fields).
  - intros d -> Hd. apply (extract_records_reports _ _ i _ _ _ Hi Hall).
    intros st. unfold process_item.
    destruct (dict_get "string_list_data" d) as [[| | | | |sub_items|?]|];
      try done.
    by destruct (Hd sub_items).
Qed.

Lemma skipped_record_is_reported_witness :
  "Warning: Item at index 1 in followers_1.json is not a dictionary. Skipping."
    ∈ stdout (get_values_from_json
                (world_of (JList [record [sub_record (JStr "a")]; JInt 7;
                                  record [sub_record (JStr "b")]]))
                "followers_1.json" s0).1.
Proof.
  apply (proj1 (skipped_record_is_reported
    (world_of (JList [record [sub_record (JStr "a")]; JInt 7;
                      record [sub_record (JStr "b")]]))
    "followers_1.json"
    (JList [record [sub_record (JStr "a")]; JInt 7;
            record [sub_record (JStr "b")]])
    [record [sub_record (JStr "a")]; JInt 7; record [sub_record (JStr "b")]]
    s0 1 (JInt 7) ltac:(reflexivity) ltac:(reflexivity) ltac:(reflexivity)
    ltac:(repeat constructor; by eexists))).
  intros d. discriminate.
Defined.
